(** * Default submission-plugin handler of the assign module

    Shallow embedding of [AddonModAssignBaseSubmissionHandler]
    (src/addon/mod/assign/classes/base-submission-handler.ts) and the
    properties its specification states about it.

    The class is a JavaScript object with two public fields and a handle to a
    translation service; its methods receive references to caller-owned
    objects.  Methods are therefore modelled as computations over an explicit
    program state (the handler object, the heap of caller-owned objects, the
    offline storage, the log of collaborator invocations) that complete
    either normally or by throwing. *)

From stdpp Require Import base strings list gmap.

Local Open Scope string_scope.
Local Open Scope Z_scope.

(** ** JavaScript values *)

#[local] Set Warnings "-register-all".

Definition loc := positive.

(** Settlement state of a promise. *)
Inductive PromiseState (V : Type) : Type :=
| Pending
| Fulfilled (v : V)
| Rejected (e : V).
Arguments Pending {V}.
Arguments Fulfilled {V} v.
Arguments Rejected {V} e.

(** The values the handler exchanges with its callers.  Objects owned by the
    caller (assignment, submission, input data, the plugin-data accumulator,
    offline data) are references into the heap, so that a method writing into
    one of them would be visible to the caller.  Array literals and promises
    created by a method are carried by value: their identity is not
    modelled.  Only integral numbers are needed (the literal [0]). *)
Inductive JSValue : Type :=
| JSUndefined
| JSNull
| JSBool (b : bool)
| JSNumber (n : Z)
| JSString (s : string)
| JSArray (elems : list JSValue)
| JSRef (l : loc)
| JSPromise (p : PromiseState JSValue).

(** JavaScript truthiness, as used by [if (plugin.name)]. *)
Definition ToBoolean (v : JSValue) : bool :=
  match v with
  | JSUndefined | JSNull => false
  | JSBool b => b
  | JSNumber n => negb (n =? 0)
  | JSString s => negb (String.eqb s "")
  | JSArray _ | JSRef _ | JSPromise _ => true
  end.

(** Value of an optional string property: [undefined] when it is missing. *)
Definition prop_value (o : option string) : JSValue :=
  match o with
  | Some s => JSString s
  | None => JSUndefined
  end.

(** ** Collaborators and inputs *)

(** Modelled from the spec: the declaration of [AddonModAssignPlugin] lives in
    ../providers/assign, outside the sources at hand.  The specification
    describes the descriptor as metadata holding a type name and a display
    name, the latter possibly missing.  A well-formed descriptor is an
    object: [null] and [undefined] are not descriptors. *)
Module Plugin.
Record t : Type := mk { type : string; name : option string }.
End Plugin.

(** The translation collaborator ([TranslateService] of @ngx-translate/core)
    is not part of these sources and is taken as a parameter.  The handler
    uses one operation of it, [instant]: a lookup taking a string key and
    returning either the translated string or the key itself when no
    translation is registered.  Any function from keys to strings is an
    admissible behaviour. *)
Module TranslateService.
Record t : Type := mk { instant : string -> string }.
End TranslateService.

(** Invocations of external collaborators, in the order they happen. *)
Inductive CollaboratorCall : Type :=
| TranslateInstant (key : string).

(** ** The handler object and the program state *)

Module Handler.
(** Fields of the class: [name], [type] and the constructor parameter
    property [translate]. *)
Record t : Type := mk {
  name : string;
  type : string;
  translate : TranslateService.t
}.
End Handler.

Record State : Type := mkState {
  this : Handler.t;                        (* the handler instance *)
  heap : gmap loc (gmap string JSValue);   (* caller-owned objects *)
  storage : gmap string JSValue;           (* offline storage collaborator *)
  trace : list CollaboratorCall            (* collaborator calls made so far *)
}.

(** ** Computations: state passing with abrupt completion *)

Inductive Completion (A : Type) : Type :=
| Normal (a : A)
| Throw (e : JSValue).
Arguments Normal {A} a.
Arguments Throw {A} e.

Definition M (A : Type) : Type := State -> Completion A * State.

#[export] Instance M_ret : MRet M := fun A a st => (Normal a, st).

#[export] Instance M_bind : MBind M := fun A B f m st =>
  match m st with
  | (Normal a, st') => f a st'
  | (Throw e, st') => (Throw e, st')
  end.

(** [this.translate.instant(key)]: asks the translation service held by the
    handler and records the call.  The service keeps to its contract here:
    it returns, and returns a string.  [General] below drops the contract. *)
Definition translate_instant (key : string) : M string := fun st =>
  (Normal (TranslateService.instant (Handler.translate (this st)) key),
   mkState (this st) (heap st) (storage st) (trace st ++ [TranslateInstant key])).

(** ** The class *)

Module AddonModAssignBaseSubmissionHandler.

(** [name = 'AddonModAssignBaseSubmissionHandler'; type = 'base';
    constructor(protected translate: TranslateService) { }] *)
Definition constructor (translate : TranslateService.t) : Handler.t :=
  Handler.mk "AddonModAssignBaseSubmissionHandler" "base" translate.

Definition canEditOffline (assign submission : JSValue) (plugin : Plugin.t)
  : M JSValue :=
  mret (JSBool false).

Definition isEmpty (assign : JSValue) (plugin : Plugin.t) : M JSValue :=
  mret (JSBool true).

(* Nothing to do. *)
Definition clearTmpData (assign submission : JSValue) (plugin : Plugin.t)
    (inputData : JSValue) : M JSValue :=
  mret JSUndefined.

(* Nothing to do. *)
Definition copySubmissionData (assign : JSValue) (plugin : Plugin.t)
    (pluginData : JSValue) (userId : option Z) (siteId : option string)
  : M JSValue :=
  mret JSUndefined.

(* Nothing to do. *)
Definition deleteOfflineData (assign submission : JSValue)
    (plugin : Plugin.t) (offlineData : JSValue) (siteId : option string)
  : M JSValue :=
  mret JSUndefined.

(* Nothing to do. *)
Definition getComponent (injector : JSValue) (plugin : Plugin.t)
    (edit : option bool) : M JSValue :=
  mret JSUndefined.

Definition getPluginFiles (assign submission : JSValue) (plugin : Plugin.t)
    (siteId : option string) : M JSValue :=
  mret (JSArray []).

(** ['addon.mod_assign_submission_' + plugin.type + '.pluginname'] *)
Definition translationId (plugin : Plugin.t) : string :=
  ("addon.mod_assign_submission_" +:+ Plugin.type plugin) +:+ ".pluginname".

Definition getPluginName (plugin : Plugin.t) : M JSValue :=
  (* Check if there's a translated string for the plugin. *)
  let translationId := translationId plugin in
  translation ← translate_instant translationId;
  if negb (String.eqb translationId translation) then
    (* Translation found, use it. *)
    mret (JSString translation)
  else
    (* Fallback to WS string. *)
    if ToBoolean (prop_value (Plugin.name plugin)) then
      mret (prop_value (Plugin.name plugin))
    else
      (* the function body ends without a return statement *)
      mret JSUndefined.

Definition getSizeForCopy (assign : JSValue) (plugin : Plugin.t)
  : M JSValue :=
  mret (JSNumber 0).

Definition getSizeForEdit (assign submission : JSValue) (plugin : Plugin.t)
    (inputData : JSValue) : M JSValue :=
  mret (JSNumber 0).

Definition hasDataChanged (assign submission : JSValue) (plugin : Plugin.t)
    (inputData : JSValue) : M JSValue :=
  mret (JSBool false).

Definition isEnabled : M JSValue :=
  mret (JSBool true).

Definition isEnabledForEdit : M JSValue :=
  mret (JSBool false).

(** [return Promise.resolve();] *)
Definition prefetch (assign submission : JSValue) (plugin : Plugin.t)
    (siteId : option string) : M JSValue :=
  mret (JSPromise (Fulfilled JSUndefined)).

(* Nothing to do. *)
Definition prepareSubmissionData (assign submission : JSValue)
    (plugin : Plugin.t) (inputData pluginData : JSValue)
    (offline : option bool) (userId : option Z) (siteId : option string)
  : M JSValue :=
  mret JSUndefined.

(* Nothing to do. *)
Definition prepareSyncData (assign submission : JSValue) (plugin : Plugin.t)
    (offlineData pluginData : JSValue) (siteId : option string)
  : M JSValue :=
  mret JSUndefined.

End AddonModAssignBaseSubmissionHandler.

Import AddonModAssignBaseSubmissionHandler.

(** ** Invoking a method by name

    The specification quantifies over "every hook".  [HookCall] lists the
    sixteen methods of the class with their actual arguments and [invoke]
    dispatches to the method's definition. *)

Inductive HookCall : Type :=
| CanEditOffline (assign submission : JSValue) (plugin : Plugin.t)
| IsEmpty (assign : JSValue) (plugin : Plugin.t)
| ClearTmpData (assign submission : JSValue) (plugin : Plugin.t)
    (inputData : JSValue)
| CopySubmissionData (assign : JSValue) (plugin : Plugin.t)
    (pluginData : JSValue) (userId : option Z) (siteId : option string)
| DeleteOfflineData (assign submission : JSValue) (plugin : Plugin.t)
    (offlineData : JSValue) (siteId : option string)
| GetComponent (injector : JSValue) (plugin : Plugin.t) (edit : option bool)
| GetPluginFiles (assign submission : JSValue) (plugin : Plugin.t)
    (siteId : option string)
| GetPluginName (plugin : Plugin.t)
| GetSizeForCopy (assign : JSValue) (plugin : Plugin.t)
| GetSizeForEdit (assign submission : JSValue) (plugin : Plugin.t)
    (inputData : JSValue)
| HasDataChanged (assign submission : JSValue) (plugin : Plugin.t)
    (inputData : JSValue)
| IsEnabled
| IsEnabledForEdit
| Prefetch (assign submission : JSValue) (plugin : Plugin.t)
    (siteId : option string)
| PrepareSubmissionData (assign submission : JSValue) (plugin : Plugin.t)
    (inputData pluginData : JSValue) (offline : option bool)
    (userId : option Z) (siteId : option string)
| PrepareSyncData (assign submission : JSValue) (plugin : Plugin.t)
    (offlineData pluginData : JSValue) (siteId : option string).

Definition invoke (c : HookCall) : M JSValue :=
  match c with
  | CanEditOffline a s p => canEditOffline a s p
  | IsEmpty a p => isEmpty a p
  | ClearTmpData a s p i => clearTmpData a s p i
  | CopySubmissionData a p d u site => copySubmissionData a p d u site
  | DeleteOfflineData a s p o site => deleteOfflineData a s p o site
  | GetComponent inj p e => getComponent inj p e
  | GetPluginFiles a s p site => getPluginFiles a s p site
  | GetPluginName p => getPluginName p
  | GetSizeForCopy a p => getSizeForCopy a p
  | GetSizeForEdit a s p i => getSizeForEdit a s p i
  | HasDataChanged a s p i => hasDataChanged a s p i
  | IsEnabled => isEnabled
  | IsEnabledForEdit => isEnabledForEdit
  | Prefetch a s p site => prefetch a s p site
  | PrepareSubmissionData a s p i d off u site =>
      prepareSubmissionData a s p i d off u site
  | PrepareSyncData a s p o d site => prepareSyncData a s p o d site
  end.

(** What the caller gets back and the state it is left with. *)
Definition result {A : Type} (m : M A) (st : State) : Completion A := fst (m st).
Definition final {A : Type} (m : M A) (st : State) : State := snd (m st).

(** A caller invoking methods one after the other, whatever each returns. *)
Fixpoint invoke_all (calls : list HookCall) (st : State) : State :=
  match calls with
  | [] => st
  | c :: rest => invoke_all rest (final (invoke c) st)
  end.

(** A completion is a success when the method did not throw and did not hand
    back a rejected promise. *)
Definition is_success (r : Completion JSValue) : bool :=
  match r with
  | Throw _ => false
  | Normal (JSPromise (Rejected _)) => false
  | Normal _ => true
  end.

(** A computation leaves the caller's objects and the offline storage as
    they were. *)
Definition preserves_frame (m : M JSValue) : Prop :=
  forall st, heap (final m st) = heap st /\ storage (final m st) = storage st.

(** A write into a caller-owned object, [target[key] = v]: what an overriding
    handler does to the accumulator.  No method of the base class uses it; it
    fixes what "modified" means for the heap. *)
Definition set_prop (target : loc) (key : string) (v : JSValue) : M JSValue :=
  fun st =>
    (Normal v,
     mkState (this st)
       (<[target := <[key := v]> (default ∅ (heap st !! target))]> (heap st))
       (storage st) (trace st)).

(** ** Concrete inputs used in examples *)

(** A translation service with no registered string: every key is echoed. *)
Definition echo_translate : TranslateService.t :=
  TranslateService.mk (fun key => key).

(** A translation service knowing the name of the file submission plugin. *)
Definition file_translate : TranslateService.t :=
  TranslateService.mk (fun key =>
    if String.eqb key "addon.mod_assign_submission_file.pluginname"
    then "File submissions" else key).

Definition initial_state (translate : TranslateService.t) : State :=
  mkState (constructor translate) ∅ ∅ [].

(** A state in which the caller owns an accumulator at address 1 that already
    holds one field, and the offline storage holds one record. *)
Definition busy_state (translate : TranslateService.t) : State :=
  mkState (constructor translate)
    {[ 1%positive := {[ "files_filemanager" := JSNumber 42 ]} ]}
    {[ "submission_7" := JSString "draft" ]}
    [TranslateInstant "core.ok"].

Definition file_plugin : Plugin.t :=
  Plugin.mk "file" (Some "File submissions (WS)").
Definition custom_plugin : Plugin.t :=
  Plugin.mk "custom" (Some "Custom Plugin").
Definition nameless_plugin : Plugin.t := Plugin.mk "custom" None.
Definition empty_name_plugin : Plugin.t := Plugin.mk "custom" (Some "").

(** ** Expected collaborator traffic *)

(** The collaborator calls a sequence of method calls should leave in the
    log, read off the method bodies: [getPluginName] is the only method that
    calls out, once, to look up the key of its plugin. *)
Fixpoint expected_lookups (calls : list HookCall) : list CollaboratorCall :=
  match calls with
  | [] => []
  | GetPluginName plugin :: rest =>
      TranslateInstant (translationId plugin) :: expected_lookups rest
  | _ :: rest => expected_lookups rest
  end.

(** A descriptor whose own name is the translation key of its type. *)
Definition key_named_plugin : Plugin.t :=
  Plugin.mk "quiz" (Some "addon.mod_assign_submission_quiz.pluginname").

(** ** The translation service outside its contract

    Nothing in the class checks what [this.translate.instant] does: the call
    is not guarded and its answer is handed on as it comes.  [General] reads
    [getPluginName] with a service that may complete in any way. *)

(** A completion that involves no state. *)
Definition M_lift {A : Type} (c : Completion A) : M A := fun st => (c, st).

Module General.
Section Behaviour.

(** What [this.translate.instant(key)] does at run time, in the state it is
    called in: it may throw, and what it answers need not be a string. *)
Variable instant : State -> string -> Completion JSValue.

(** ECMAScript compares a string with a boolean, a number or an object after
    coercing one of them (ToNumber, ToPrimitive), which can itself throw.
    These coercions are not modelled; the outcome of such a comparison is a
    parameter. *)
Variable coerced_equal : string -> JSValue -> Completion bool.

(** [s == v] for a string [s]: string equality on strings, never equal to
    [undefined] or [null], by coercion otherwise. *)
Definition loosely_equal (s : string) (v : JSValue) : Completion bool :=
  match v with
  | JSString t => Normal (String.eqb s t)
  | JSUndefined | JSNull => Normal false
  | JSBool _ | JSNumber _ | JSArray _ | JSRef _ | JSPromise _ =>
      coerced_equal s v
  end.

Definition translate_instant (key : string) : M JSValue := fun st =>
  (instant st key,
   mkState (this st) (heap st) (storage st)
     (trace st ++ [TranslateInstant key])).

Definition getPluginName (plugin : Plugin.t) : M JSValue :=
  (* Check if there's a translated string for the plugin. *)
  let translationId := translationId plugin in
  translation ← translate_instant translationId;
  equal ← M_lift (loosely_equal translationId translation);
  if negb equal then
    (* Translation found, use it. *)
    mret translation
  else
    (* Fallback to WS string. *)
    if ToBoolean (prop_value (Plugin.name plugin)) then
      mret (prop_value (Plugin.name plugin))
    else
      (* the function body ends without a return statement *)
      mret JSUndefined.

(** The other fifteen methods never touch the service. *)
Definition invoke (c : HookCall) : M JSValue :=
  match c with
  | GetPluginName plugin => getPluginName plugin
  | _ => invoke c
  end.

End Behaviour.
End General.

(** The service of the contract: it answers the string the handler's
    [translate] field gives for the key. *)
Definition contract_service (st : State) (key : string) : Completion JSValue :=
  Normal (JSString (TranslateService.instant (Handler.translate (this st)) key)).

(** A service that is down: every lookup throws. *)
Definition failing_service (st : State) (key : string) : Completion JSValue :=
  Throw (JSString "translations not loaded").

(** A service that answers every lookup with a rejected promise. *)
Definition rejecting_service (st : State) (key : string)
  : Completion JSValue :=
  Normal (JSPromise (Rejected (JSString "translations not loaded"))).

(** A comparison that finds no coerced value equal to the string. *)
Definition never_coerced_equal (s : string) (v : JSValue) : Completion bool :=
  Normal false.

(** ** Proof support *)

Create HintDb hooks discriminated.

#[local] Hint Unfold result final preserves_frame : hooks.
#[local] Hint Unfold canEditOffline isEmpty clearTmpData copySubmissionData
  deleteOfflineData getComponent getPluginFiles getSizeForCopy getSizeForEdit
  hasDataChanged isEnabled isEnabledForEdit prefetch prepareSubmissionData
  prepareSyncData : hooks.

(** Methods whose body is a single [return] (or is empty) run by unfolding. *)
Ltac run_constant_hook :=
  intros; autounfold with hooks; cbn; try done.

(** Case analysis on the comparison [translationId != translation]. *)
Ltac split_translation_test key tr :=
  destruct (String.eqb key tr) eqn:Htest;
  [apply String.eqb_eq in Htest | apply String.eqb_neq in Htest].

(** ** [getPluginName], step by step *)

(** The key handed to the translation service has the documented shape. *)
Lemma translationId_shape (plugin : Plugin.t) :
  translationId plugin
  = "addon.mod_assign_submission_" +:+ (Plugin.type plugin +:+ ".pluginname").
Proof.
  (* both sides unfold, letter by letter, down to [type +:+ ".pluginname"] *)
  unfold translationId. cbn. reflexivity.
Qed.

(** One run of [getPluginName]: the translation service is asked once, for
    the plugin's key, and nothing else in the state moves. *)
Lemma getPluginName_run (plugin : Plugin.t) (st : State) :
  let key := translationId plugin in
  let translation := TranslateService.instant (Handler.translate (this st)) key in
  getPluginName plugin st
  = (Normal (if negb (String.eqb key translation) then JSString translation
             else if ToBoolean (prop_value (Plugin.name plugin))
                  then prop_value (Plugin.name plugin)
                  else JSUndefined),
     mkState (this st) (heap st) (storage st)
       (trace st ++ [TranslateInstant key])).
Proof.
  cbv zeta. unfold getPluginName, mbind, M_bind, translate_instant.
  destruct (negb _); [done|].
  destruct (ToBoolean _); done.
Qed.

Lemma getPluginName_result (plugin : Plugin.t) (st : State) :
  let key := translationId plugin in
  let translation := TranslateService.instant (Handler.translate (this st)) key in
  result (getPluginName plugin) st
  = Normal (if negb (String.eqb key translation) then JSString translation
            else if ToBoolean (prop_value (Plugin.name plugin))
                 then prop_value (Plugin.name plugin)
                 else JSUndefined).
Proof. cbv zeta. unfold result. by rewrite getPluginName_run. Qed.

(** C1, as amended.  [getPluginName] asks the translation service for the key
    ["addon.mod_assign_submission_" + plugin.type + ".pluginname"].  When the
    answer differs from the key, it returns the answer.  When the answer
    echoes the key, it returns the descriptor's name if that name is a
    non-empty string, and [undefined] if the descriptor has no name or an
    empty one. *)
Theorem getPluginName_translation_then_name (plugin : Plugin.t) (st : State) :
  let key := translationId plugin in
  let translation := TranslateService.instant (Handler.translate (this st)) key in
  key = "addon.mod_assign_submission_" +:+ (Plugin.type plugin +:+ ".pluginname") /\
  (translation <> key ->
     result (getPluginName plugin) st = Normal (JSString translation)) /\
  (translation = key ->
     forall n, Plugin.name plugin = Some n -> n <> "" ->
     result (getPluginName plugin) st = Normal (JSString n)) /\
  (translation = key ->
     Plugin.name plugin = None \/ Plugin.name plugin = Some "" ->
     result (getPluginName plugin) st = Normal JSUndefined).
Proof.
  cbv zeta. split; [apply translationId_shape|].
  rewrite getPluginName_result.
  set (key := translationId plugin).
  set (tr := TranslateService.instant (Handler.translate (this st)) key).
  split_translation_test key tr; cbn [negb].
  - (* the lookup echoed the key *)
    split; [congruence|]. split.
    + intros _ n Hname Hn. rewrite Hname. cbn.
      destruct (String.eqb n "") eqn:He; [by apply String.eqb_eq in He|done].
    + intros _ [Hname|Hname]; by rewrite Hname.
  - (* a translation is registered *)
    split; [done|]. split; congruence.
Qed.

(** The three documented outcomes, on the examples of the specification: a
    registered translation for the "file" plugin, the descriptor's name for
    an untranslated "custom" plugin, [undefined] without translation and
    name. *)
Lemma getPluginName_translation_then_name_witness :
  result (getPluginName file_plugin) (initial_state file_translate)
    = Normal (JSString "File submissions") /\
  result (getPluginName custom_plugin) (initial_state echo_translate)
    = Normal (JSString "Custom Plugin") /\
  result (getPluginName nameless_plugin) (initial_state echo_translate)
    = Normal JSUndefined.
Proof.
  split; [|split].
  - apply (proj1 (proj2 (getPluginName_translation_then_name
                           file_plugin (initial_state file_translate)))).
    vm_compute. discriminate.
  - apply (proj1 (proj2 (proj2 (getPluginName_translation_then_name
                                  custom_plugin (initial_state echo_translate))))
             eq_refl "Custom Plugin" eq_refl).
    discriminate.
  - apply (proj2 (proj2 (proj2 (getPluginName_translation_then_name
                                  nameless_plugin (initial_state echo_translate))))
             eq_refl).
    left. reflexivity.
Defined.

(** C1, as stated, fails on a descriptor whose name is the empty string: the
    lookup echoes the key and the name field is present, yet the result is
    [undefined], not the name field. *)
Lemma getPluginName_empty_name_not_returned :
  TranslateService.instant echo_translate (translationId empty_name_plugin)
    = translationId empty_name_plugin /\
  Plugin.name empty_name_plugin = Some "" /\
  result (getPluginName empty_name_plugin) (initial_state echo_translate)
    = Normal JSUndefined /\
  result (getPluginName empty_name_plugin) (initial_state echo_translate)
    <> Normal (prop_value (Plugin.name empty_name_plugin)).
Proof.
  split; [reflexivity|]. split; [reflexivity|]. split; [reflexivity|].
  vm_compute. discriminate.
Qed.

(** C9.  When the lookup echoes the key and the descriptor's name is the
    empty string, [getPluginName] returns [undefined], not the empty string:
    the result is the one of a descriptor that has no name at all. *)
Theorem getPluginName_empty_name_undefined (plugin : Plugin.t) (st : State) :
  TranslateService.instant (Handler.translate (this st)) (translationId plugin)
    = translationId plugin ->
  Plugin.name plugin = Some "" ->
  result (getPluginName plugin) st = Normal JSUndefined /\
  result (getPluginName plugin) st <> Normal (JSString "") /\
  result (getPluginName plugin) st
    = result (getPluginName (Plugin.mk (Plugin.type plugin) None)) st.
Proof.
  intros Hecho Hname.
  assert (Hres : result (getPluginName plugin) st = Normal JSUndefined).
  { rewrite getPluginName_result, Hecho, Hname.
    by rewrite (proj2 (String.eqb_eq _ _) eq_refl). }
  split; [exact Hres|]. split; [by rewrite Hres|].
  rewrite Hres, getPluginName_result.
  change (translationId (Plugin.mk (Plugin.type plugin) None))
    with (translationId plugin).
  rewrite Hecho. by rewrite (proj2 (String.eqb_eq _ _) eq_refl).
Qed.

Lemma getPluginName_empty_name_undefined_witness :
  result (getPluginName empty_name_plugin) (busy_state echo_translate)
    = Normal JSUndefined.
Proof.
  apply (getPluginName_empty_name_undefined
           empty_name_plugin (busy_state echo_translate)); reflexivity.
Defined.

(** ** Constant results *)

(** C2.  The boolean methods return their documented constant, as a normal
    completion: [canEditOffline] false, [isEmpty] true, [hasDataChanged]
    false, [isEnabled] true, [isEnabledForEdit] false. *)
Theorem boolean_hooks_constant
    (assign submission inputData : JSValue) (plugin : Plugin.t) (st : State) :
  result (canEditOffline assign submission plugin) st = Normal (JSBool false) /\
  result (isEmpty assign plugin) st = Normal (JSBool true) /\
  result (hasDataChanged assign submission plugin inputData) st
    = Normal (JSBool false) /\
  result isEnabled st = Normal (JSBool true) /\
  result isEnabledForEdit st = Normal (JSBool false).
Proof. run_constant_hook. Qed.

(** C5.  [getSizeForCopy] and [getSizeForEdit] return exactly the number 0. *)
Theorem size_hooks_zero
    (assign submission inputData : JSValue) (plugin : Plugin.t) (st : State) :
  result (getSizeForCopy assign plugin) st = Normal (JSNumber 0) /\
  result (getSizeForEdit assign submission plugin inputData) st
    = Normal (JSNumber 0).
Proof. run_constant_hook. Qed.

(** C6.  [getPluginFiles] returns the empty array. *)
Theorem getPluginFiles_empty
    (assign submission : JSValue) (plugin : Plugin.t) (siteId : option string)
    (st : State) :
  result (getPluginFiles assign submission plugin siteId) st
  = Normal (JSArray []).
Proof. run_constant_hook. Qed.

(** C7.  [prefetch] hands back a promise that is already fulfilled with no
    value, and does so without calling any collaborator: the log of
    collaborator calls, like the rest of the state, is as before. *)
Theorem prefetch_resolved_immediately
    (assign submission : JSValue) (plugin : Plugin.t) (siteId : option string)
    (st : State) :
  result (prefetch assign submission plugin siteId) st
    = Normal (JSPromise (Fulfilled JSUndefined)) /\
  trace (final (prefetch assign submission plugin siteId) st) = trace st /\
  final (prefetch assign submission plugin siteId) st = st.
Proof. run_constant_hook. Qed.

(** ** Frame: the caller's objects and the offline storage *)

(** The frame property can fail: a method storing a field into the
    accumulator, as an overriding handler would, does not preserve it. *)
Lemma set_prop_breaks_frame :
  ~ preserves_frame (set_prop 1%positive "files_filemanager" (JSNumber 7)).
Proof.
  intros Hframe.
  destruct (Hframe (initial_state echo_translate)) as [Hheap _].
  apply (f_equal (fun h => h !! 1%positive)) in Hheap.
  vm_compute in Hheap. discriminate.
Qed.

(** C3.  The default [clearTmpData], [copySubmissionData],
    [deleteOfflineData], [prepareSubmissionData] and [prepareSyncData] leave
    the heap of caller-owned objects (the plugin-data accumulator among them)
    and the offline storage exactly as they found them. *)
Theorem side_effecting_hooks_preserve_frame
    (assign submission inputData pluginData offlineData : JSValue)
    (plugin : Plugin.t) (offline : option bool) (userId : option Z)
    (siteId : option string) :
  preserves_frame (clearTmpData assign submission plugin inputData) /\
  preserves_frame (copySubmissionData assign plugin pluginData userId siteId) /\
  preserves_frame
    (deleteOfflineData assign submission plugin offlineData siteId) /\
  preserves_frame
    (prepareSubmissionData assign submission plugin inputData pluginData
       offline userId siteId) /\
  preserves_frame
    (prepareSyncData assign submission plugin offlineData pluginData siteId).
Proof. repeat split. Qed.

(** ** Properties of every method *)

(** No method writes to the handler object. *)
Lemma invoke_this (c : HookCall) (st : State) :
  this (final (invoke c) st) = this st.
Proof.
  destruct c; try reflexivity.
  unfold final. cbn [invoke]. by rewrite getPluginName_run.
Qed.

(** What a method returns depends on the state only through the translation
    service the handler holds. *)
Lemma invoke_result_translate (c : HookCall) (st1 st2 : State) :
  Handler.translate (this st1) = Handler.translate (this st2) ->
  result (invoke c) st1 = result (invoke c) st2.
Proof.
  intros Htr. destruct c; try reflexivity.
  cbn [invoke]. rewrite !getPluginName_result. by rewrite Htr.
Qed.

Lemma invoke_all_this (calls : list HookCall) (st : State) :
  this (invoke_all calls st) = this st.
Proof.
  revert st. induction calls as [|c rest IH]; intros st; cbn [invoke_all].
  - reflexivity.
  - rewrite IH. apply invoke_this.
Qed.

(** C8.  Calling a method on two states whose handlers hold the same
    translation service gives the same result, whatever else the states
    hold; the call leaves the handler object as it was; and no later call,
    of this or another method, can tell that it happened. *)
Theorem hooks_deterministic_stateless (c : HookCall) (st1 st2 : State) :
  Handler.translate (this st1) = Handler.translate (this st2) ->
  result (invoke c) st1 = result (invoke c) st2 /\
  this (final (invoke c) st1) = this st1 /\
  result (invoke c) (final (invoke c) st1) = result (invoke c) st1 /\
  forall c' : HookCall,
    result (invoke c') (final (invoke c) st1) = result (invoke c') st1.
Proof.
  intros Htr.
  split; [by apply invoke_result_translate|].
  split; [apply invoke_this|].
  split; [|intros c']; apply invoke_result_translate; by rewrite invoke_this.
Qed.

(** The same call on a fresh state and on one with a populated heap, storage
    and call log. *)
Lemma hooks_deterministic_stateless_witness :
  result (invoke (GetPluginName custom_plugin)) (initial_state echo_translate)
  = result (invoke (GetPluginName custom_plugin)) (busy_state echo_translate).
Proof.
  apply (hooks_deterministic_stateless (GetPluginName custom_plugin)
           (initial_state echo_translate) (busy_state echo_translate)).
  reflexivity.
Defined.

(** C10.  A constructed handler has [name] equal to
    "AddonModAssignBaseSubmissionHandler" and [type] equal to "base", and
    these two fields are the same after any sequence of method calls. *)
Theorem identity_fields_constant :
  (forall translate : TranslateService.t,
     Handler.name (constructor translate)
       = "AddonModAssignBaseSubmissionHandler" /\
     Handler.type (constructor translate) = "base") /\
  (forall (calls : list HookCall) (st : State),
     Handler.name (this (invoke_all calls st)) = Handler.name (this st) /\
     Handler.type (this (invoke_all calls st)) = Handler.type (this st)).
Proof.
  split; [done|].
  intros calls st. by rewrite invoke_all_this.
Qed.

(** ** Translation keys *)

Lemma string_length_append (s t : string) :
  String.length (s +:+ t) = (String.length s + String.length t)%nat.
Proof.
  induction s as [|ch s IH]; [done|].
  change (S (String.length (s +:+ t)) = S (String.length s + String.length t)).
  by rewrite IH.
Qed.

(** Appending the same suffix to two strings keeps them apart. *)
Lemma string_append_cancel_r (s1 s2 t : string) :
  s1 +:+ t = s2 +:+ t -> s1 = s2.
Proof.
  revert s2. induction s1 as [|a s1 IH]; intros [|b s2] Heq.
  - done.
  - apply (f_equal String.length) in Heq.
    rewrite !string_length_append in Heq. cbn in Heq. lia.
  - apply (f_equal String.length) in Heq.
    rewrite !string_length_append in Heq. cbn in Heq. lia.
  - change (String a (s1 +:+ t) = String b (s2 +:+ t)) in Heq.
    injection Heq as -> Heq. f_equal. by apply IH.
Qed.

(** X1.  The key built by [getPluginName] is never the empty string, is
    39 characters longer than the plugin type, and two descriptors get the
    same key exactly when they have the same type. *)
Theorem translationId_injective (p1 p2 : Plugin.t) :
  translationId p1 <> "" /\
  String.length (translationId p1) = (String.length (Plugin.type p1) + 39)%nat /\
  (translationId p1 = translationId p2 <-> Plugin.type p1 = Plugin.type p2).
Proof.
  split; [done|]. split.
  - unfold translationId. rewrite !string_length_append. cbn. lia.
  - split.
    + unfold translationId. intros Heq.
      apply string_append_cancel_r in Heq.
      by apply (inj (String.app _)) in Heq.
    + unfold translationId. by intros ->.
Qed.

(** ** What [getPluginName] can return *)

(** X2.  Unless the descriptor's own name is the translation key,
    [getPluginName] never hands the raw key back to its caller. *)
Theorem getPluginName_never_raw_key (plugin : Plugin.t) (st : State) :
  Plugin.name plugin <> Some (translationId plugin) ->
  result (getPluginName plugin) st <> Normal (JSString (translationId plugin)).
Proof.
  intros Hname. rewrite getPluginName_result.
  set (key := translationId plugin) in *.
  set (tr := TranslateService.instant (Handler.translate (this st)) key).
  split_translation_test key tr; cbn [negb].
  - destruct (Plugin.name plugin) as [n|]; cbn; [|done].
    destruct (String.eqb n ""); [done|].
    intros Heq. apply Hname. injection Heq as Heq. f_equal. exact Heq.
  - intros Heq. apply Htest. injection Heq as Heq. symmetry. exact Heq.
Qed.

Lemma getPluginName_never_raw_key_witness :
  result (getPluginName custom_plugin) (initial_state echo_translate)
  <> Normal (JSString (translationId custom_plugin)).
Proof.
  apply (getPluginName_never_raw_key custom_plugin
           (initial_state echo_translate)).
  vm_compute. discriminate.
Defined.

(** The exception of X2 is real: a descriptor named like its key gets the
    key back. *)
Lemma getPluginName_key_named :
  result (getPluginName key_named_plugin) (initial_state echo_translate)
  = Normal (JSString (translationId key_named_plugin)).
Proof. reflexivity. Qed.

(** ** Sequences of method calls *)

(** The state after one call: only the call log can have grown. *)
Lemma invoke_final (c : HookCall) (st : State) :
  final (invoke c) st
  = mkState (this st) (heap st) (storage st)
      (trace st ++ expected_lookups [c]).
Proof.
  destruct c;
    try (destruct st; unfold final; cbn; by rewrite app_nil_r).
  unfold final. cbn [invoke expected_lookups]. by rewrite getPluginName_run.
Qed.

(** X4.  After any sequence of calls to the default methods, the handler
    object, the caller-owned objects and the offline storage are what they
    were, and the log of collaborator calls has grown by exactly one
    translation lookup per [getPluginName] call, in call order. *)
Theorem invoke_all_state (calls : list HookCall) (st : State) :
  invoke_all calls st
  = mkState (this st) (heap st) (storage st)
      (trace st ++ expected_lookups calls).
Proof.
  revert st. induction calls as [|c rest IH]; intros st.
  - destruct st. cbn. by rewrite app_nil_r.
  - cbn [invoke_all]. rewrite IH, invoke_final. cbn [this heap storage trace].
    rewrite <- app_assoc. do 2 f_equal.
    destruct c; reflexivity.
Qed.

(** X5.  What a method returns does not depend on which methods were called
    before it, nor on how many. *)
Theorem invoke_after_any_calls
    (calls : list HookCall) (c : HookCall) (st : State) :
  result (invoke c) (invoke_all calls st) = result (invoke c) st.
Proof. apply invoke_result_translate. by rewrite invoke_all_this. Qed.

(** ** A service that does not keep to its contract *)

(** One run of the general [getPluginName]: the answer of the service is
    compared with the key and handed on as it is; a throw of the service or
    of the comparison ends the method. *)
Lemma general_getPluginName_run
    (instant : State -> string -> Completion JSValue)
    (coerced_equal : string -> JSValue -> Completion bool)
    (plugin : Plugin.t) (st : State) :
  General.getPluginName instant coerced_equal plugin st
  = (match instant st (translationId plugin) with
     | Throw e => Throw e
     | Normal v =>
         match General.loosely_equal coerced_equal (translationId plugin) v with
         | Throw e => Throw e
         | Normal equal =>
             Normal (if negb equal then v
                     else if ToBoolean (prop_value (Plugin.name plugin))
                          then prop_value (Plugin.name plugin)
                          else JSUndefined)
         end
     end,
     mkState (this st) (heap st) (storage st)
       (trace st ++ [TranslateInstant (translationId plugin)])).
Proof.
  unfold General.getPluginName, General.translate_instant, mbind, M_bind,
    M_lift.
  destruct (instant st (translationId plugin)) as [v|e]; [|done].
  destruct (General.loosely_equal _ _ v) as [equal|e]; [|done].
  destruct (negb equal); [done|].
  by destruct (ToBoolean _).
Qed.

(** With a service that keeps to its contract the general reading is the
    one used so far, whatever the coercions do. *)
Lemma general_invoke_contract
    (coerced_equal : string -> JSValue -> Completion bool)
    (c : HookCall) (st : State) :
  General.invoke contract_service coerced_equal c st = invoke c st.
Proof.
  (* on a string answer the comparison is string equality: both readings
     unfold to the same term *)
  destruct c; reflexivity.
Qed.

(** C4, as stated, fails when the translation service is allowed any
    behaviour: if the lookup throws, [getPluginName] throws, whatever the
    descriptor. *)
Lemma getPluginName_raises_with_failing_service :
  (forall coerced_equal,
     result (General.invoke failing_service coerced_equal
               (GetPluginName custom_plugin))
       (initial_state echo_translate)
     = Throw (JSString "translations not loaded")) /\
  is_success (Throw (JSString "translations not loaded")) = false.
Proof. split; [intros coerced_equal|]; reflexivity. Qed.

(** The same with a service answering a rejected promise, which is no key:
    the promise is handed on to the caller. *)
Lemma getPluginName_passes_on_rejected_promise :
  is_success
    (result (General.invoke rejecting_service never_coerced_equal
               (GetPluginName custom_plugin))
       (initial_state echo_translate))
  = false.
Proof. reflexivity. Qed.

(** C4, as amended.  Every method other than [getPluginName] completes
    normally, with no rejected promise, whatever the translation service
    does.  [getPluginName] does so whenever the lookup of the plugin's key
    returns a value that is not a rejected promise and the comparison of
    that value with the key does not throw, in particular whenever the
    lookup returns a string. *)
Theorem hooks_total_unless_service_fails
    (instant : State -> string -> Completion JSValue)
    (coerced_equal : string -> JSValue -> Completion bool)
    (c : HookCall) (st : State) :
  (forall plugin, c = GetPluginName plugin ->
     exists v equal,
       instant st (translationId plugin) = Normal v /\
       General.loosely_equal coerced_equal (translationId plugin) v
         = Normal equal /\
       is_success (Normal v) = true) ->
  is_success (result (General.invoke instant coerced_equal c) st) = true /\
  exists (v : JSValue) (st' : State),
    General.invoke instant coerced_equal c st = (Normal v, st').
Proof.
  intros Hservice.
  destruct c; try (split; [reflexivity | eexists _, _; reflexivity]).
  destruct (Hservice plugin eq_refl) as (v & equal & Hv & Heq & Hok).
  unfold result. cbn [General.invoke].
  rewrite general_getPluginName_run, Hv, Heq. cbn [fst].
  split; [|by eexists _, _].
  destruct (negb equal); [exact Hok|].
  destruct (ToBoolean _); [|done].
  by destruct (Plugin.name plugin).
Qed.

(** A lookup that returns a string meets the condition of the amended C4. *)
Lemma string_answer_is_safe
    (instant : State -> string -> Completion JSValue)
    (coerced_equal : string -> JSValue -> Completion bool)
    (st : State) (plugin : Plugin.t) (translation : string) :
  instant st (translationId plugin) = Normal (JSString translation) ->
  exists v equal,
    instant st (translationId plugin) = Normal v /\
    General.loosely_equal coerced_equal (translationId plugin) v
      = Normal equal /\
    is_success (Normal v) = true.
Proof. intros Hanswer. by eexists _, _. Qed.

Lemma hooks_total_unless_service_fails_witness :
  is_success
    (result (General.invoke contract_service never_coerced_equal
               (GetPluginName custom_plugin))
       (busy_state file_translate))
  = true.
Proof.
  apply (hooks_total_unless_service_fails contract_service never_coerced_equal
           (GetPluginName custom_plugin) (busy_state file_translate)).
  intros plugin [= <-].
  apply (string_answer_is_safe contract_service never_coerced_equal
           (busy_state file_translate) custom_plugin
           (translationId custom_plugin)).
  reflexivity.
Defined.

(** When the lookup throws, so does [getPluginName]. *)
Lemma general_getPluginName_throws
    (instant : State -> string -> Completion JSValue)
    (coerced_equal : string -> JSValue -> Completion bool)
    (plugin : Plugin.t) (st : State) (e : JSValue) :
  instant st (translationId plugin) = Throw e ->
  result (General.getPluginName instant coerced_equal plugin) st = Throw e.
Proof.
  intros Hthrow. unfold result.
  by rewrite general_getPluginName_run, Hthrow.
Qed.

(** X3.  Whatever the translation service does, [getPluginName] returns
    [undefined] in exactly two cases: the service itself answered
    [undefined], or its answer equals the key and the descriptor has no name
    or an empty one.  It returns the empty string only if the service
    answered the empty string.  And if the service answers a string, the
    result is a string or [undefined]. *)
Theorem general_getPluginName_undefined_iff
    (instant : State -> string -> Completion JSValue)
    (coerced_equal : string -> JSValue -> Completion bool)
    (plugin : Plugin.t) (st : State) :
  let key := translationId plugin in
  let outcome := result (General.getPluginName instant coerced_equal plugin) st in
  (outcome = Normal JSUndefined <->
   instant st key = Normal JSUndefined \/
   exists v, instant st key = Normal v /\
             General.loosely_equal coerced_equal key v = Normal true /\
             (Plugin.name plugin = None \/ Plugin.name plugin = Some "")) /\
  (outcome = Normal (JSString "") -> instant st key = Normal (JSString "")) /\
  (forall translation, instant st key = Normal (JSString translation) ->
     (exists s, outcome = Normal (JSString s)) \/ outcome = Normal JSUndefined).
Proof.
  cbv zeta. unfold result. rewrite general_getPluginName_run. cbn [fst].
  set (key := translationId plugin).
  destruct (instant st key) as [v|e].
  2:{ (* the lookup threw *)
      split; [split; [done|]|split; [done|]].
      - intros [?|(v & ? & _)]; discriminate.
      - intros ? ?; discriminate. }
  destruct (General.loosely_equal coerced_equal key v) as [[|]|e] eqn:Hcmp;
    cbn [negb].
  - (* the answer equals the key: fall back to the name *)
    destruct (Plugin.name plugin) as [n|]; cbn.
    + destruct (String.eqb n "") eqn:He; cbn.
      * apply String.eqb_eq in He as ->.
        split; [split; [intros _; right; exists v; by eauto | done]|].
        split; [done|]. intros ? _. by right.
      * apply String.eqb_neq in He.
        split; [split; [done|]|].
        -- intros [Hu|(v' & [= <-] & _ & [?|?])]; [|congruence..].
           injection Hu as ->. cbn in Hcmp. discriminate.
        -- split; [congruence|]. intros ? _. left. by eexists.
    + split; [split; [intros _; right; exists v; by eauto | done]|].
      split; [done|]. intros ? _. by right.
  - (* the answer differs from the key: it is handed on *)
    split; [split|].
    + intros [= ->]. by left.
    + intros [[= ->]|(v' & [= <-] & ? & _)]; [done|congruence].
    + split; [by intros [= ->]|].
      intros translation [= ->]. left. by eexists.
  - (* the comparison threw *)
    split; [split; [done|]|split; [done|]].
    + intros [[= ->]|(v' & [= <-] & ? & _)]; [|congruence].
      cbn in Hcmp. discriminate.
    + intros translation [= ->]. cbn in Hcmp. discriminate.
Qed.

(** ** Plain values and promises *)

(** X6.  A default method hands back a promise in exactly two cases:
    [prefetch], whose promise is fulfilled with [undefined], and
    [getPluginName] when the translation service itself answered that
    promise and the promise is not taken for the key, in which case it is
    passed on as it is.  No other method ever returns a promise. *)
Theorem promise_only_from_prefetch_or_service
    (instant : State -> string -> Completion JSValue)
    (coerced_equal : string -> JSValue -> Completion bool)
    (c : HookCall) (st : State) (p : PromiseState JSValue) :
  result (General.invoke instant coerced_equal c) st = Normal (JSPromise p) <->
  ((exists assign submission plugin siteId,
      c = Prefetch assign submission plugin siteId) /\
   p = Fulfilled JSUndefined) \/
  (exists plugin,
     c = GetPluginName plugin /\
     instant st (translationId plugin) = Normal (JSPromise p) /\
     coerced_equal (translationId plugin) (JSPromise p) = Normal false).
Proof.
  destruct c;
    try (split;
         [ discriminate
         | intros [[(? & ? & ? & ? & ?) _]|(? & ? & _)]; discriminate ]).
  - (* getPluginName *)
    unfold result. cbn [General.invoke].
    rewrite general_getPluginName_run. cbn [fst].
    split.
    + intros Hres. right. exists plugin. split; [done|].
      destruct (instant st (translationId plugin)) as [v|e]; [|done].
      destruct (General.loosely_equal coerced_equal _ v) as [[|]|e] eqn:Hcmp;
        [| |done]; cbn [negb] in Hres.
      * destruct (Plugin.name plugin) as [n|]; cbn in Hres; [|done].
        by destruct (String.eqb n "").
      * injection Hres as ->. done.
    + intros [[(? & ? & ? & ? & ?) _]|(? & [= <-] & Hv & Hcmp)];
        [discriminate|].
      rewrite Hv. cbn [General.loosely_equal]. by rewrite Hcmp.
  - (* prefetch *)
    split.
    + intros [= <-]. left. split; [by eexists _, _, _, _|done].
    + intros [[_ ->]|(? & ? & _)]; [done|discriminate].
Qed.

(** The second case of X6 happens: a promise answered by the service comes
    back from [getPluginName]. *)
Lemma getPluginName_returns_service_promise :
  result (General.invoke rejecting_service never_coerced_equal
            (GetPluginName file_plugin))
    (initial_state file_translate)
  = Normal (JSPromise (Rejected (JSString "translations not loaded"))).
Proof.
  apply (promise_only_from_prefetch_or_service rejecting_service
           never_coerced_equal (GetPluginName file_plugin)
           (initial_state file_translate)).
  right. exists file_plugin. by repeat split.
Defined.
